(** * Cobb-Douglas production and constant-elasticity demand

    A shallow embedding of [economic_model.py] (classes [CobbDouglasModel]
    and [DemandModel]) and of the handlers of [main.py].

    Numbers.  The program computes on Python floats (binary64).  Here a
    float is a real number ([R]) and the arithmetic operators are the exact
    ones: [x ** y] on a positive base is [Rpower x y = exp (y * ln x)], and
    [round(x, n)] is rounding to the nearest multiple of [10^-n], ties to
    the even multiple.  The rounding of each operation to 53 bits is not
    modelled, so a statement below is either one that the rounding cannot
    change (which exception is raised, which fields are returned, signs,
    values reached by exact steps, a field as the rounding of what another
    function returned) or one that carries the range in which it is meant:
    [binary64_normal] for a result that neither overflows nor underflows,
    [binary64] for a result that is representable, so that the step is
    exact.

    Exceptions.  A Python expression either yields a value or raises; this
    is the [outcome] type, threaded with the monadic bind [x ← e; k].  The
    operators that can raise on floats are [/] (zero divisor) and [**]
    (zero base with a negative exponent, and a result beyond the binary64
    range).

    Dictionaries.  The result mappings are Python dict literals with string
    keys: [gmap string value]. *)

From Stdlib Require Import Reals Lra ZArith.
From stdpp Require Import gmap strings.

Local Open Scope R_scope.

(** ** Outcomes of Python expressions *)

Inductive exn : Type :=
| ZeroDivisionError
| OverflowError
| TypeError
| ComplexResult.
(* [ComplexResult] is not a Python exception: a negative float raised to a
   fractional power is a complex number in Python 3, which leaves the float
   model; the computation is cut there, and what Python goes on to do with
   the complex value is not modelled. *)

Inductive outcome (A : Type) : Type :=
| Ok (a : A)
| Raise (e : exn).
Arguments Ok {A} a.
Arguments Raise {A} e.

#[global] Instance outcome_ret : MRet outcome := fun A a => Ok a.

#[global] Instance outcome_bind : MBind outcome := fun A B k o =>
  match o with
  | Ok a => k a
  | Raise e => Raise e
  end.

#[global] Instance outcome_fmap : FMap outcome := fun A B f o =>
  match o with
  | Ok a => Ok (f a)
  | Raise e => Raise e
  end.

(** ** Python's float operators over the reals *)

(* x / y *)
Definition py_div (x y : R) : outcome R :=
  if Req_dec_T y 0 then Raise ZeroDivisionError else Ok (x / y).

Definition is_integral (y : R) : Prop := IZR (Int_part y) = y.

Definition is_integral_dec (y : R) : {is_integral y} + {~ is_integral y} :=
  Req_dec_T (IZR (Int_part y)) y.

(** The binary64 range: a result of magnitude [2^1024 - 2^970] or more
    rounds to an infinity; [2^-1022] is the smallest positive normal
    number. *)
Definition overflow_threshold : R := IZR (2 ^ 1024) - IZR (2 ^ 970).

Definition min_normal : R := / IZR (2 ^ 1022).

(* neither overflow nor underflow: the result keeps 53 significant bits *)
Definition binary64_normal (x : R) : Prop :=
  min_normal <= Rabs x /\ Rabs x < overflow_threshold.

(* representable: [m * 2^e] with a 53-bit [m] and an exponent in range *)
Definition binary64 (x : R) : Prop :=
  exists m e : Z,
    (Z.abs m < 2 ^ 53)%Z /\ (-1074 <= e <= 971)%Z /\ x = IZR m * powerRZ 2 e.

(* float_pow raises OverflowError when pow's result is out of range *)
Definition check_range (r : R) : outcome R :=
  if Rle_dec overflow_threshold (Rabs r) then Raise OverflowError else Ok r.

(* x ** y, float_pow of CPython *)
Definition py_pow (x y : R) : outcome R :=
  if Rlt_dec 0 x then check_range (Rpower x y)
  else if Req_dec_T x 0 then
    if Req_dec_T y 0 then Ok 1
    else if Rlt_dec 0 y then Ok 0
    else Raise ZeroDivisionError
  else
    if is_integral_dec y then check_range (powerRZ x (Int_part y))
    else Raise ComplexResult.

Infix "/!" := py_div (at level 40, left associativity).
Infix "**" := py_pow (at level 30, right associativity).

(** ** class CobbDouglasModel *)

Record CobbDouglasModel : Type := mkCobbDouglasModel {
  A : R;       (* self.A = tfp *)
  alpha : R;
  beta : R
}.

Definition production (self : CobbDouglasModel) (capital labor : R) : outcome R :=
  ka ← capital ** alpha self;
  lb ← labor ** beta self;
  Ok (A self * ka * lb).

Definition marginal_product_capital (self : CobbDouglasModel) (capital labor : R)
  : outcome R :=
  ka ← capital ** (alpha self - 1);
  lb ← labor ** beta self;
  Ok (alpha self * A self * ka * lb).

Definition marginal_product_labor (self : CobbDouglasModel) (capital labor : R)
  : outcome R :=
  ka ← capital ** alpha self;
  lb ← labor ** (beta self - 1);
  Ok (beta self * A self * ka * lb).

(** ** round(x, ndigits) *)

(* nearest integer, ties to even *)
Definition round_half_even (x : R) : Z :=
  let f := Int_part x in
  let d := x - IZR f in
  if Rlt_dec d (1 / 2) then f
  else if Rlt_dec (1 / 2) d then (f + 1)%Z
  else if Z.even f then f else (f + 1)%Z.

Definition py_round (x : R) (ndigits : nat) : R :=
  IZR (round_half_even (x * 10 ^ ndigits)) / 10 ^ ndigits.


(** ** Result mappings *)

Inductive value : Type :=
| VFloat (x : R)
| VStr (s : string).

(** ** optimal_allocation

    The optimum is whatever scipy's [minimize(..., method='SLSQP')] returns
    in [result.x]; the solver is not part of the program and is a parameter
    here. *)

Section Allocation.

(* minimize objective initial_guess bounds constraint = result.x *)
Variable minimize :
  (R * R -> outcome R) -> R * R -> list (R * option R) -> (R * R -> R) ->
  outcome (R * R).

Definition optimal_allocation (self : CobbDouglasModel)
    (budget capital_price labor_price : R) : outcome (gmap string value) :=
  let objective := fun x : R * R =>
    let '(K, L) := x in Ropp <$> production self K L in
  let budget_constraint := fun x : R * R =>
    let '(K, L) := x in budget - (capital_price * K + labor_price * L) in
  let bounds := [(0.01, None); (0.01, None)] in
  k0 ← budget /! (2 * capital_price);
  l0 ← budget /! (2 * labor_price);
  let initial_guess := (k0, l0) in
  x ← minimize objective initial_guess bounds budget_constraint;
  let '(optimal_K, optimal_L) := x in
  optimal_output ← production self optimal_K optimal_L;
  mpk ← marginal_product_capital self optimal_K optimal_L;
  mpl ← marginal_product_labor self optimal_K optimal_L;
  Ok ({[ "capital" := VFloat (py_round optimal_K 2);
         "labor" := VFloat (py_round optimal_L 2);
         "output" := VFloat (py_round optimal_output 2);
         "mpk" := VFloat (py_round mpk 4);
         "mpl" := VFloat (py_round mpl 4) ]} : gmap string value).

End Allocation.

(** ** class DemandModel *)

Definition demand_quantity (price elasticity base_price base_quantity : R)
  : outcome R :=
  ratio ← price /! base_price;
  pw ← ratio ** elasticity;
  Ok (base_quantity * pw).

Definition revenue (price elasticity base_price base_quantity : R) : outcome R :=
  quantity ← demand_quantity price elasticity base_price base_quantity;
  Ok (price * quantity).

Definition optimal_price (elasticity marginal_cost : R)
  : outcome (gmap string value) :=
  if Rge_dec elasticity 0 then
    Ok {[ "error" := VStr "Elasticity must be negative for downward-sloping demand" ]}
  else
    inv ← 1 /! elasticity;
    optimal_price ← marginal_cost /! (1 + inv);
    markup ← (optimal_price - marginal_cost) /! marginal_cost;
    Ok {[ "optimal_price" := VFloat (py_round optimal_price 2);
          "markup_percentage" := VFloat (py_round (markup * 100) 2) ]}.

(* the two shapes of an optimal-price result *)
Definition is_error_result (o : outcome (gmap string value)) : Prop :=
  exists d msg, o = Ok d /\ d !! "error" = Some (VStr msg).

Definition is_numeric_result (o : outcome (gmap string value)) : Prop :=
  exists d p m, o = Ok d /\ d !! "error" = None /\
    d !! "optimal_price" = Some (VFloat p) /\
    d !! "markup_percentage" = Some (VFloat m).

(** ** main.py: the /production endpoint *)

Module Request.

(* ProductionRequest after validation; an Optional field may be null *)
Record ProductionRequest : Type := mkProductionRequest {
  capital : R;
  labor : R;
  tfp : option R;
  alpha : option R;
  beta : option R
}.

(* Field(gt=0) on capital and labor; the three optional fields numeric *)
Definition valid (request : ProductionRequest) : Prop :=
  0 < capital request /\ 0 < labor request /\
  is_Some (tfp request) /\ is_Some (alpha request) /\ is_Some (beta request).

End Request.

(* A null field reaches the arithmetic as None and raises TypeError there. *)
Definition require_float (o : option R) : outcome R :=
  match o with
  | Some x => Ok x
  | None => Raise TypeError
  end.

(* CobbDouglasModel.production on a model built from the request's optional
   parameters.  [self.A * (capital ** self.alpha) * (labor ** self.beta)]
   takes the first power, then multiplies by A, then takes the second
   power: a null alpha raises at once, a null tfp after the first power,
   a null beta after that. *)
Definition production_optional (tfp alpha beta : option R) (capital labor : R)
  : outcome R :=
  a ← require_float alpha;
  ka ← capital ** a;
  t ← require_float tfp;
  b ← require_float beta;
  lb ← labor ** b;
  Ok (t * ka * lb).

Definition calculate_production (request : Request.ProductionRequest)
  : outcome (gmap string value) :=
  output ← production_optional (Request.tfp request) (Request.alpha request)
    (Request.beta request) (Request.capital request) (Request.labor request);
  (* production returned, so the three parameters are numbers *)
  tfp ← require_float (Request.tfp request);
  a ← require_float (Request.alpha request);
  b ← require_float (Request.beta request);
  let model := mkCobbDouglasModel tfp a b in
  mpk ← marginal_product_capital model (Request.capital request) (Request.labor request);
  mpl ← marginal_product_labor model (Request.capital request) (Request.labor request);
  Ok {[ "output" := VFloat (py_round output 2);
        "marginal_product_capital" := VFloat (py_round mpk 4);
        "marginal_product_labor" := VFloat (py_round mpl 4);
        "returns_to_scale" := VFloat (a + b) ]}.

(** ** main.py: the /optimize, /demand and /optimal-price endpoints *)

Module OptimizationRequest.

Record t : Type := mk {
  budget : R;
  capital_price : R;
  labor_price : R;
  tfp : option R;
  alpha : option R;
  beta : option R
}.

End OptimizationRequest.

Module DemandRequest.

Record t : Type := mk {
  price : R;
  elasticity : R;
  base_price : option R;
  base_quantity : option R
}.

End DemandRequest.

Module OptimalPriceRequest.

Record t : Type := mk {
  elasticity : R;
  marginal_cost : R
}.

End OptimalPriceRequest.

(* The parameters are read up front.  In the code a null parameter raises
   TypeError when the solver first evaluates the objective; which of that
   and an exception of the objective's first power comes first is the
   solver's business and is not ordered here. *)
Definition optimize_production
    (minimize : (R * R -> outcome R) -> R * R -> list (R * option R) ->
                (R * R -> R) -> outcome (R * R))
    (request : OptimizationRequest.t) : outcome (gmap string value) :=
  tfp ← require_float (OptimizationRequest.tfp request);
  a ← require_float (OptimizationRequest.alpha request);
  b ← require_float (OptimizationRequest.beta request);
  let model := mkCobbDouglasModel tfp a b in
  optimal_allocation minimize model (OptimizationRequest.budget request)
    (OptimizationRequest.capital_price request)
    (OptimizationRequest.labor_price request).

(* DemandModel.demand_quantity on the request's optional reference values.
   [base_quantity * ((price / base_price) ** elasticity)] divides first,
   then takes the power, then multiplies: a null base_price raises at the
   division, a null base_quantity at the multiplication, after whatever the
   division and the power raise. *)
Definition demand_quantity_optional (price elasticity : R)
    (base_price base_quantity : option R) : outcome R :=
  match base_price, base_quantity with
  | Some bp, Some bq => demand_quantity price elasticity bp bq
  | Some bp, None =>
      ratio ← price /! bp;
      _ ← ratio ** elasticity;
      Raise TypeError
  | None, _ => Raise TypeError
  end.

Definition revenue_optional (price elasticity : R)
    (base_price base_quantity : option R) : outcome R :=
  quantity ← demand_quantity_optional price elasticity base_price base_quantity;
  Ok (price * quantity).

Definition calculate_demand (request : DemandRequest.t)
  : outcome (gmap string value) :=
  quantity ← demand_quantity_optional
    (DemandRequest.price request) (DemandRequest.elasticity request)
    (DemandRequest.base_price request) (DemandRequest.base_quantity request);
  revenue ← revenue_optional
    (DemandRequest.price request) (DemandRequest.elasticity request)
    (DemandRequest.base_price request) (DemandRequest.base_quantity request);
  Ok {[ "price" := VFloat (DemandRequest.price request);
        "quantity_demanded" := VFloat (py_round quantity 2);
        "total_revenue" := VFloat (py_round revenue 2);
        "elasticity" := VFloat (DemandRequest.elasticity request) ]}.

Definition find_optimal_price (request : OptimalPriceRequest.t)
  : outcome (gmap string value) :=
  optimal_price (OptimalPriceRequest.elasticity request)
    (OptimalPriceRequest.marginal_cost request).

(** ** Euler's identity, as the specification words it

    [alpha * MPK * K + beta * MPL * L], to be compared with [production]. *)
Definition spec_euler_weighted_sum (self : CobbDouglasModel) (K L : R) : outcome R :=
  mpk ← marginal_product_capital self K L;
  mpl ← marginal_product_labor self K L;
  Ok (alpha self * mpk * K + beta self * mpl * L).

(* factor payments: [MPK * K + MPL * L] *)
Definition factor_payments (self : CobbDouglasModel) (K L : R) : outcome R :=
  mpk ← marginal_product_capital self K L;
  mpl ← marginal_product_labor self K L;
  Ok (mpk * K + mpl * L).

(** ** Ranges in which the exact values stand for the computed ones *)

(* every partial product [acc * x1 * ... * xk] is a normal number *)
Fixpoint products_normal (acc : R) (factors : list R) : Prop :=
  match factors with
  | [] => True
  | x :: rest => binary64_normal (acc * x) /\ products_normal (acc * x) rest
  end.

Definition production_in_range (self : CobbDouglasModel) (K L : R) : Prop :=
  binary64_normal (Rpower K (alpha self)) /\
  binary64_normal (Rpower L (beta self)) /\
  products_normal (A self) [Rpower K (alpha self); Rpower L (beta self)].

Definition marginal_product_capital_in_range (self : CobbDouglasModel) (K L : R)
  : Prop :=
  binary64_normal (Rpower K (alpha self - 1)) /\
  binary64_normal (Rpower L (beta self)) /\
  products_normal (alpha self)
    [A self; Rpower K (alpha self - 1); Rpower L (beta self)].

Definition marginal_product_labor_in_range (self : CobbDouglasModel) (K L : R)
  : Prop :=
  binary64_normal (Rpower K (alpha self)) /\
  binary64_normal (Rpower L (beta self - 1)) /\
  products_normal (beta self)
    [A self; Rpower K (alpha self); Rpower L (beta self - 1)].

Definition revenue_in_range (price elasticity base_price base_quantity : R)
  : Prop :=
  binary64_normal (price / base_price) /\
  binary64_normal (Rpower (price / base_price) elasticity) /\
  binary64_normal (base_quantity * Rpower (price / base_price) elasticity) /\
  binary64_normal
    (price * (base_quantity * Rpower (price / base_price) elasticity)).

(* every step of the markup formula gives a representable number, so that
   no step of the binary64 computation rounds *)
Definition optimal_price_steps_exact (elasticity marginal_cost : R) : Prop :=
  let p := marginal_cost / (1 + 1 / elasticity) in
  Forall binary64
    [elasticity; marginal_cost; 1 / elasticity; 1 + 1 / elasticity; p;
     p - marginal_cost; (p - marginal_cost) / marginal_cost;
     (p - marginal_cost) / marginal_cost * 100].

(** ** The allocation property, as the specification words it *)





(** * Properties *)

(** ** The operators *)

Lemma bind_Ok {A B : Type} (a : A) (k : A -> outcome B) : (Ok a ≫= k) = k a.
Proof. reflexivity. Qed.

Lemma py_div_nonzero x y : y <> 0 -> x /! y = Ok (x / y).
Proof. intros Hy. unfold py_div. destruct (Req_dec_T y 0); [contradiction | reflexivity]. Qed.

Lemma py_div_zero x : x /! 0 = Raise ZeroDivisionError.
Proof. unfold py_div. destruct (Req_dec_T 0 0); [reflexivity | contradiction]. Qed.

Lemma Rpower_pos x y : 0 < Rpower x y.
Proof. unfold Rpower. apply exp_pos. Qed.

Lemma check_range_ok r : Rabs r < overflow_threshold -> check_range r = Ok r.
Proof.
  intros H. unfold check_range.
  destruct (Rle_dec overflow_threshold (Rabs r)); [lra | reflexivity].
Qed.

Lemma check_range_overflow r :
  overflow_threshold <= Rabs r -> check_range r = Raise OverflowError.
Proof.
  intros H. unfold check_range.
  destruct (Rle_dec overflow_threshold (Rabs r)); [reflexivity | contradiction].
Qed.

Lemma py_pow_pos x y :
  0 < x -> Rpower x y < overflow_threshold -> x ** y = Ok (Rpower x y).
Proof.
  intros Hx Hr. unfold py_pow. destruct (Rlt_dec 0 x); [| contradiction].
  apply check_range_ok. rewrite Rabs_pos_eq; [assumption |].
  left. apply Rpower_pos.
Qed.

Lemma py_pow_overflow x y :
  0 < x -> overflow_threshold <= Rpower x y -> x ** y = Raise OverflowError.
Proof.
  intros Hx Hr. unfold py_pow. destruct (Rlt_dec 0 x); [| contradiction].
  apply check_range_overflow. rewrite Rabs_pos_eq; [assumption |].
  left. apply Rpower_pos.
Qed.

Lemma binary64_normal_no_overflow x :
  0 < x -> binary64_normal x -> x < overflow_threshold.
Proof. intros Hx [_ H]. rewrite Rabs_pos_eq in H; lra. Qed.

Lemma binary64_normal_between x :
  min_normal <= x -> x < overflow_threshold -> binary64_normal x.
Proof.
  intros Hlo Hhi. assert (0 < min_normal).
  { unfold min_normal. apply Rinv_0_lt_compat. lra. }
  unfold binary64_normal. rewrite Rabs_pos_eq; lra.
Qed.

Lemma Rpower_base_1 y : Rpower 1 y = 1.
Proof. unfold Rpower. rewrite ln_1, Rmult_0_r. apply exp_0. Qed.

(* x^(a-1) * x = x^a *)
Lemma Rpower_pred_mult x a : 0 < x -> Rpower x (a - 1) * x = Rpower x a.
Proof.
  intros Hx. rewrite <- (Rpower_1 x Hx) at 2.
  rewrite <- Rpower_plus. f_equal. lra.
Qed.


(* bounds on a power of a base that is at least 1 *)
Lemma Rpower_le_base x y : 1 <= x -> y <= 1 -> Rpower x y <= x.
Proof.
  intros Hx Hy. rewrite <- (Rpower_1 x) at 2 by lra. apply Rle_Rpower; assumption.
Qed.

Lemma Rpower_le_1 x y : 1 <= x -> y <= 0 -> Rpower x y <= 1.
Proof.
  intros Hx Hy. rewrite <- (Rpower_O x) by lra. apply Rle_Rpower; assumption.
Qed.

Lemma Rpower_square x : 0 < x -> Rpower x 2 = x * x.
Proof.
  intros Hx. replace 2 with (1 + 1) by lra.
  rewrite Rpower_plus, Rpower_1 by assumption. reflexivity.
Qed.

Lemma Rpower_4_half : Rpower 4 0.5 = 2.
Proof.
  replace 0.5 with (/ 2) by lra. rewrite Rpower_sqrt by lra.
  replace 4 with (2 * 2) by lra. apply sqrt_square. lra.
Qed.

Lemma Rpower_4_minus_half : Rpower 4 (0.5 - 1) = / 2.
Proof.
  replace (0.5 - 1) with (Ropp 0.5) by lra.
  rewrite Rpower_Ropp, Rpower_4_half. reflexivity.
Qed.

Lemma one_in_range : 1 < overflow_threshold.
Proof. unfold overflow_threshold. lra. Qed.

(* closes a goal [binary64_normal c] or [c < overflow_threshold] on a
   constant or on a term bounded by hypotheses *)
Ltac in_range :=
  try apply binary64_normal_between;
  unfold min_normal, overflow_threshold; lra.

(** ** CobbDouglasModel *)

Lemma production_pos self K L :
  0 < K -> 0 < L ->
  Rpower K (alpha self) < overflow_threshold ->
  Rpower L (beta self) < overflow_threshold ->
  production self K L = Ok (A self * Rpower K (alpha self) * Rpower L (beta self)).
Proof.
  intros HK HL HrK HrL. unfold production.
  rewrite (py_pow_pos K), (py_pow_pos L) by assumption. reflexivity.
Qed.

Lemma marginal_product_capital_pos self K L :
  0 < K -> 0 < L ->
  Rpower K (alpha self - 1) < overflow_threshold ->
  Rpower L (beta self) < overflow_threshold ->
  marginal_product_capital self K L =
    Ok (alpha self * A self * Rpower K (alpha self - 1) * Rpower L (beta self)).
Proof.
  intros HK HL HrK HrL. unfold marginal_product_capital.
  rewrite (py_pow_pos K), (py_pow_pos L) by assumption. reflexivity.
Qed.

Lemma marginal_product_labor_pos self K L :
  0 < K -> 0 < L ->
  Rpower K (alpha self) < overflow_threshold ->
  Rpower L (beta self - 1) < overflow_threshold ->
  marginal_product_labor self K L =
    Ok (beta self * A self * Rpower K (alpha self) * Rpower L (beta self - 1)).
Proof.
  intros HK HL HrK HrL. unfold marginal_product_labor.
  rewrite (py_pow_pos K), (py_pow_pos L) by assumption. reflexivity.
Qed.

Lemma production_of_range self K L :
  0 < K -> 0 < L -> production_in_range self K L ->
  production self K L = Ok (A self * Rpower K (alpha self) * Rpower L (beta self)).
Proof.
  intros HK HL (HnK & HnL & _).
  apply production_pos; try assumption;
    (apply binary64_normal_no_overflow; [apply Rpower_pos | assumption]).
Qed.

Lemma marginal_product_capital_of_range self K L :
  0 < K -> 0 < L -> marginal_product_capital_in_range self K L ->
  marginal_product_capital self K L =
    Ok (alpha self * A self * Rpower K (alpha self - 1) * Rpower L (beta self)).
Proof.
  intros HK HL (HnK & HnL & _).
  apply marginal_product_capital_pos; try assumption;
    (apply binary64_normal_no_overflow; [apply Rpower_pos | assumption]).
Qed.

Lemma marginal_product_labor_of_range self K L :
  0 < K -> 0 < L -> marginal_product_labor_in_range self K L ->
  marginal_product_labor self K L =
    Ok (beta self * A self * Rpower K (alpha self) * Rpower L (beta self - 1)).
Proof.
  intros HK HL (HnK & HnL & _).
  apply marginal_product_labor_pos; try assumption;
    (apply binary64_normal_no_overflow; [apply Rpower_pos | assumption]).
Qed.

(* the three ranges at alpha = beta = 0.5, K = L = 4, for any moderate A *)
Lemma ranges_half_half_4 a :
  1 <= a <= 100 ->
  production_in_range (mkCobbDouglasModel a 0.5 0.5) 4 4 /\
  marginal_product_capital_in_range (mkCobbDouglasModel a 0.5 0.5) 4 4 /\
  marginal_product_labor_in_range (mkCobbDouglasModel a 0.5 0.5) 4 4.
Proof.
  intros Ha.
  unfold production_in_range, marginal_product_capital_in_range,
    marginal_product_labor_in_range. cbn [A alpha beta products_normal].
  rewrite Rpower_4_half, Rpower_4_minus_half.
  repeat split; in_range.
Qed.

Lemma production_overflows_1e200 :
  production (mkCobbDouglasModel 1 2 1) 1e200 1e200 = Raise OverflowError.
Proof.
  unfold production. cbn [A alpha beta].
  rewrite (py_pow_overflow 1e200 2); [reflexivity | lra |].
  rewrite Rpower_square by lra. unfold overflow_threshold. lra.
Qed.

(** C1, as stated, fails.  With A = 1, alpha = 2, beta = 1 and
    K = L = 1e200 the power [K ** alpha] is beyond the binary64 range and
    [production] raises OverflowError.  With A = 1e308, alpha = 2, beta = 1,
    K = 1e-300 and L = 1e300 the exact output is 1e8, while the power
    [K ** alpha] is below half the smallest binary64 number, 2^-1075, so
    that the computed power, and with it the computed output, is 0.0. *)
Lemma production_overflow_counterexample :
  (0 < 1e200 /\
   production (mkCobbDouglasModel 1 2 1) 1e200 1e200 = Raise OverflowError) /\
  (0 < 1e-300 /\ 0 < 1e300 /\
   Rpower 1e-300 2 < / IZR (2 ^ 1075) /\
   production (mkCobbDouglasModel 1e308 2 1) 1e-300 1e300 = Ok 1e8).
Proof.
  split; [split; [lra | exact production_overflows_1e200] |].
  assert (Hk : Rpower 1e-300 2 = 1e-300 * 1e-300) by (apply Rpower_square; lra).
  assert (Hl : Rpower 1e300 1 = 1e300) by (apply Rpower_1; lra).
  split; [lra |]. split; [lra |]. split; [rewrite Hk; lra |].
  rewrite production_pos; cbn [A alpha beta]; rewrite ?Hk, ?Hl; try lra.
  - f_equal. lra.
  - unfold overflow_threshold. lra.
  - unfold overflow_threshold. lra.
Qed.

(** C1, amended.  On positive capital and labor, when the two powers and
    the partial products are normal binary64 numbers, [production] returns
    [A * K^alpha * L^beta]; when a power is beyond the binary64 range it
    raises OverflowError.  With A = 1, alpha = 0.3, beta = 0.7 at K = 100,
    L = 50 it returns [100^0.3 * 50^0.7]. *)
Theorem production_cobb_douglas :
  (forall self K L, 0 < K -> 0 < L -> production_in_range self K L ->
     production self K L
       = Ok (A self * Rpower K (alpha self) * Rpower L (beta self))) /\
  (forall self K L, 0 < K -> 0 < L ->
     overflow_threshold <= Rpower K (alpha self) \/
     overflow_threshold <= Rpower L (beta self) ->
     production self K L = Raise OverflowError) /\
  production (mkCobbDouglasModel 1 0.3 0.7) 100 50
    = Ok (Rpower 100 0.3 * Rpower 50 0.7).
Proof.
  split; [exact production_of_range |]. split.
  - intros self K L HK HL Hov. unfold production.
    destruct (Rlt_dec (Rpower K (alpha self)) overflow_threshold) as [HrK | HrK].
    + destruct Hov as [Hov | Hov]; [lra |].
      rewrite (py_pow_pos K), (py_pow_overflow L) by assumption. reflexivity.
    + rewrite (py_pow_overflow K) by lra. reflexivity.
  - pose proof (Rpower_le_base 100 0.3) as H1. pose proof (Rpower_le_base 50 0.7) as H2.
    rewrite production_pos; cbn [A alpha beta]; try lra.
    + f_equal. ring.
    + unfold overflow_threshold. lra.
    + unfold overflow_threshold. lra.
Qed.

Lemma production_cobb_douglas_witness :
  (0 < 4 /\ 0 < 4 /\ production_in_range (mkCobbDouglasModel 2 0.5 0.5) 4 4) /\
  production (mkCobbDouglasModel 2 0.5 0.5) 4 4
    = Ok (2 * Rpower 4 0.5 * Rpower 4 0.5).
Proof.
  pose proof (ranges_half_half_4 2 ltac:(lra)) as (Hr & _ & _).
  split; [split; [lra | split; [lra | exact Hr]] |].
  apply (proj1 production_cobb_douglas (mkCobbDouglasModel 2 0.5 0.5) 4 4);
    try lra. exact Hr.
Defined.

Lemma factor_payments_pos self K L :
  0 < K -> 0 < L ->
  marginal_product_capital_in_range self K L ->
  marginal_product_labor_in_range self K L ->
  factor_payments self K L = Ok ((alpha self + beta self) *
    (A self * Rpower K (alpha self) * Rpower L (beta self))).
Proof.
  intros HK HL HrK HrL. unfold factor_payments.
  rewrite marginal_product_capital_of_range, marginal_product_labor_of_range
    by assumption.
  cbn. f_equal.
  rewrite <- (Rpower_pred_mult K (alpha self) HK).
  rewrite <- (Rpower_pred_mult L (beta self) HL).
  ring.
Qed.

(* the model A = 1, alpha = beta = 0.5 at K = L = 4 *)
Lemma half_half_4_values :
  let m := mkCobbDouglasModel 1 0.5 0.5 in
  production m 4 4 = Ok 4 /\
  marginal_product_capital m 4 4 = Ok 0.5 /\
  marginal_product_labor m 4 4 = Ok 0.5.
Proof.
  pose proof (ranges_half_half_4 1 ltac:(lra)) as (Hr & Hrk & Hrl).
  cbv zeta. split; [| split].
  - rewrite production_of_range by (try lra; assumption). cbn [A alpha beta].
    rewrite Rpower_4_half. f_equal. lra.
  - rewrite marginal_product_capital_of_range by (try lra; assumption).
    cbn [A alpha beta].
    rewrite Rpower_4_half, Rpower_4_minus_half. f_equal. lra.
  - rewrite marginal_product_labor_of_range by (try lra; assumption).
    cbn [A alpha beta].
    rewrite Rpower_4_half, Rpower_4_minus_half. f_equal. lra.
Qed.

(** C5, as stated, fails: with alpha = beta = 0.5 (constant returns to
    scale), A = 1 and K = L = 4 the output is 4 while the weighted sum
    [alpha * MPK * K + beta * MPL * L] is 2. *)
Lemma euler_weighted_sum_counterexample :
  let m := mkCobbDouglasModel 1 0.5 0.5 in
  alpha m + beta m = 1 /\
  production m 4 4 = Ok 4 /\
  marginal_product_capital m 4 4 = Ok 0.5 /\
  marginal_product_labor m 4 4 = Ok 0.5 /\
  spec_euler_weighted_sum m 4 4 = Ok 2 /\
  spec_euler_weighted_sum m 4 4 <> production m 4 4.
Proof.
  destruct half_half_4_values as (Hy & Hk & Hl).
  assert (Hs : spec_euler_weighted_sum (mkCobbDouglasModel 1 0.5 0.5) 4 4 = Ok 2).
  { unfold spec_euler_weighted_sum. rewrite Hk, Hl. cbn. f_equal. lra. }
  cbv zeta. repeat split; try assumption.
  - cbn. lra.
  - rewrite Hs, Hy. intros [= H]. lra.
Qed.

(** C5, amended (Euler's theorem).  On positive capital and labor, with
    [alpha + beta = 1] and with the powers and partial products of the
    three formulas normal binary64 numbers, the factor payments
    [MPK * K + MPL * L] equal the output [production(K, L)]. *)
Theorem euler_constant_returns self K L :
  0 < K -> 0 < L -> alpha self + beta self = 1 ->
  production_in_range self K L ->
  marginal_product_capital_in_range self K L ->
  marginal_product_labor_in_range self K L ->
  exists y, production self K L = Ok y /\ factor_payments self K L = Ok y.
Proof.
  intros HK HL Hcrs Hr Hrk Hrl. eexists.
  split; [apply production_of_range; assumption |].
  rewrite factor_payments_pos by assumption. rewrite Hcrs. f_equal. ring.
Qed.

Lemma euler_constant_returns_witness :
  (0 < 4 /\ 0 < 4 /\ 0.5 + 0.5 = 1 /\
   production_in_range (mkCobbDouglasModel 1 0.5 0.5) 4 4 /\
   marginal_product_capital_in_range (mkCobbDouglasModel 1 0.5 0.5) 4 4 /\
   marginal_product_labor_in_range (mkCobbDouglasModel 1 0.5 0.5) 4 4) /\
  exists y, production (mkCobbDouglasModel 1 0.5 0.5) 4 4 = Ok y /\
            factor_payments (mkCobbDouglasModel 1 0.5 0.5) 4 4 = Ok y.
Proof.
  pose proof (ranges_half_half_4 1 ltac:(lra)) as (Hr & Hrk & Hrl).
  split; [split; [lra | split; [lra | split; [lra | auto]]] |].
  apply (euler_constant_returns (mkCobbDouglasModel 1 0.5 0.5) 4 4);
    try assumption; cbn; lra.
Defined.

(** ** round *)

Lemma Int_part_IZR z : Int_part (IZR z) = z.
Proof. symmetry. apply Int_part_spec. lra. Qed.


Lemma round_half_even_bound x : Rabs (IZR (round_half_even x) - x) <= / 2.
Proof.
  unfold round_half_even.
  destruct (base_Int_part x) as [Hlo Hhi].
  destruct (Rlt_dec (x - IZR (Int_part x)) (1 / 2)) as [H1 | H1].
  - apply Rabs_le. lra.
  - destruct (Rlt_dec (1 / 2) (x - IZR (Int_part x))) as [H2 | H2].
    + rewrite plus_IZR. apply Rabs_le. lra.
    + destruct (Z.even (Int_part x)); [| rewrite plus_IZR]; apply Rabs_le; lra.
Qed.

Lemma pow10_pos n : 0 < 10 ^ n.
Proof. apply pow_lt. lra. Qed.

Lemma pow10_IZR n : 10 ^ n = IZR (10 ^ Z.of_nat n).
Proof. rewrite <- pow_IZR. reflexivity. Qed.



Lemma Rabs_le_bounds a b : Rabs a <= b -> - b <= a <= b.
Proof.
  intros H. pose proof (Rle_abs a) as H1. pose proof (Rle_abs (- a)) as H2.
  rewrite Rabs_Ropp in H2. lra.
Qed.

(* rounding never crosses an integer *)
Lemma round_half_even_ge k x : IZR k <= x -> (k <= round_half_even x)%Z.
Proof.
  intros Hk. pose proof (round_half_even_bound x) as Hb.
  apply Rabs_le_bounds in Hb.
  assert (H : (k - 1 < round_half_even x)%Z).
  { apply lt_IZR. rewrite minus_IZR. lra. }
  lia.
Qed.

Lemma round_half_even_le k x : x <= IZR k -> (round_half_even x <= k)%Z.
Proof.
  intros Hk. pose proof (round_half_even_bound x) as Hb.
  apply Rabs_le_bounds in Hb.
  assert (H : (round_half_even x < k + 1)%Z).
  { apply lt_IZR. rewrite plus_IZR. lra. }
  lia.
Qed.


Lemma py_round_ge k x n : IZR k <= x -> IZR k <= py_round x n.
Proof.
  intros Hk. pose proof (pow10_pos n) as Hp. unfold py_round.
  apply (Rmult_le_reg_r (10 ^ n)); [assumption |].
  replace (IZR (round_half_even (x * 10 ^ n)) / 10 ^ n * 10 ^ n)
    with (IZR (round_half_even (x * 10 ^ n))) by (field; lra).
  rewrite pow10_IZR, <- mult_IZR. apply IZR_le, round_half_even_ge.
  rewrite mult_IZR, <- pow10_IZR. apply Rmult_le_compat_r; lra.
Qed.

Lemma py_round_le k x n : x <= IZR k -> py_round x n <= IZR k.
Proof.
  intros Hk. pose proof (pow10_pos n) as Hp. unfold py_round.
  apply (Rmult_le_reg_r (10 ^ n)); [assumption |].
  replace (IZR (round_half_even (x * 10 ^ n)) / 10 ^ n * 10 ^ n)
    with (IZR (round_half_even (x * 10 ^ n))) by (field; lra).
  rewrite pow10_IZR, <- mult_IZR. apply IZR_le, round_half_even_le.
  rewrite mult_IZR, <- pow10_IZR. apply Rmult_le_compat_r; lra.
Qed.



(** ** optimal_allocation *)

(* what is returned when the solver answers (K, L) *)
Lemma optimal_allocation_of_answer minimize self budget pK pL K L y mpk mpl :
  pK <> 0 -> pL <> 0 ->
  (forall objective x0 bounds constraint,
     bounds = [(0.01, None); (0.01, None)] ->
     (forall k l, objective (k, l) = Ropp <$> production self k l) ->
     (forall k l, constraint (k, l) = budget - (pK * k + pL * l)) ->
     minimize objective x0 bounds constraint = Ok (K, L)) ->
  production self K L = Ok y ->
  marginal_product_capital self K L = Ok mpk ->
  marginal_product_labor self K L = Ok mpl ->
  optimal_allocation minimize self budget pK pL =
    Ok {[ "capital" := VFloat (py_round K 2);
          "labor" := VFloat (py_round L 2);
          "output" := VFloat (py_round y 2);
          "mpk" := VFloat (py_round mpk 4);
          "mpl" := VFloat (py_round mpl 4) ]}.
Proof.
  intros HpK HpL Hsol Hy Hk Hl. unfold optimal_allocation.
  rewrite !py_div_nonzero by lra. cbn.
  rewrite Hsol by (intros; reflexivity). cbn.
  rewrite Hy, Hk, Hl. reflexivity.
Qed.



(* the default model returns on moderate inputs *)
Lemma default_model_returns K L :
  1 <= K <= 1e300 -> 1 <= L <= 1e300 ->
  let m := mkCobbDouglasModel 1 0.3 0.7 in
  production m K L = Ok (1 * Rpower K 0.3 * Rpower L 0.7) /\
  marginal_product_capital m K L
    = Ok (0.3 * 1 * Rpower K (0.3 - 1) * Rpower L 0.7) /\
  marginal_product_labor m K L
    = Ok (0.7 * 1 * Rpower K 0.3 * Rpower L (0.7 - 1)).
Proof.
  intros HK HL m.
  pose proof (Rpower_le_base K 0.3). pose proof (Rpower_le_base L 0.7).
  pose proof (Rpower_le_1 K (0.3 - 1)). pose proof (Rpower_le_1 L (0.7 - 1)).
  split; [| split].
  - apply production_pos; cbn; unfold overflow_threshold; lra.
  - apply marginal_product_capital_pos; cbn; unfold overflow_threshold; lra.
  - apply marginal_product_labor_pos; cbn; unfold overflow_threshold; lra.
Qed.


(** ** DemandModel *)

Lemma demand_quantity_pos price e bp bq :
  0 < price -> 0 < bp ->
  Rpower (price / bp) e < overflow_threshold ->
  demand_quantity price e bp bq = Ok (bq * Rpower (price / bp) e).
Proof.
  intros Hp Hb Hr. unfold demand_quantity.
  rewrite py_div_nonzero by lra. cbn.
  rewrite py_pow_pos by (try apply Rdiv_lt_0_compat; assumption). reflexivity.
Qed.

(** C6.  At the reference price the quantity demanded is the reference
    quantity, whatever the elasticity. *)
Theorem demand_quantity_at_base_price e base_price base_quantity :
  0 < base_price -> 0 < base_quantity ->
  demand_quantity base_price e base_price base_quantity = Ok base_quantity.
Proof.
  intros Hb _.
  assert (Hone : base_price / base_price = 1) by (field; lra).
  rewrite demand_quantity_pos; try assumption.
  - rewrite Hone, Rpower_base_1. f_equal. ring.
  - rewrite Hone, Rpower_base_1. apply one_in_range.
Qed.

Lemma demand_quantity_at_base_price_witness :
  (0 < 100 /\ 0 < 1000) /\ demand_quantity 100 (-1.5) 100 1000 = Ok 1000.
Proof.
  split; [lra |]. apply (demand_quantity_at_base_price (-1.5) 100 1000); lra.
Defined.





(** C8.  [revenue] is the price times [demand_quantity] of the same
    arguments, and raises whatever [demand_quantity] raises. *)
Theorem revenue_price_times_quantity price e base_price base_quantity :
  revenue price e base_price base_quantity
    = Rmult price <$> demand_quantity price e base_price base_quantity.
Proof.
  unfold revenue.
  destruct (demand_quantity price e base_price base_quantity); reflexivity.
Qed.

(** ** optimal_price *)

Lemma optimal_price_nonneg e mc :
  e >= 0 ->
  optimal_price e mc =
    Ok {[ "error" := VStr "Elasticity must be negative for downward-sloping demand" ]}.
Proof.
  intros He. unfold optimal_price. destruct (Rge_dec e 0); [reflexivity | contradiction].
Qed.

(* the divisor [1 + 1/e] vanishes at [e = -1] only *)
Lemma markup_divisor_zero e : e <> 0 -> (1 + 1 / e = 0 <-> e = -1).
Proof.
  intros He. split.
  - intros H. assert (H1 : (1 + 1 / e) * e = 0) by (rewrite H; ring).
    replace ((1 + 1 / e) * e) with (e + 1) in H1 by (field; assumption). lra.
  - intros ->. lra.
Qed.

Lemma optimal_price_neg e mc :
  e < 0 -> e <> -1 -> mc <> 0 ->
  optimal_price e mc =
    Ok {[ "optimal_price" := VFloat (py_round (mc / (1 + 1 / e)) 2);
          "markup_percentage" :=
            VFloat (py_round ((mc / (1 + 1 / e) - mc) / mc * 100) 2) ]}.
Proof.
  intros He Hu Hmc. unfold optimal_price.
  destruct (Rge_dec e 0) as [Hge | _]; [lra |].
  rewrite (py_div_nonzero 1 e) by lra. cbn.
  assert (Hd : 1 + 1 / e <> 0) by (rewrite markup_divisor_zero; lra).
  rewrite (py_div_nonzero mc _ Hd). cbn.
  rewrite py_div_nonzero by assumption. reflexivity.
Qed.

Lemma optimal_price_unit mc : optimal_price (-1) mc = Raise ZeroDivisionError.
Proof.
  unfold optimal_price. destruct (Rge_dec (-1) 0) as [Hge | _]; [lra |].
  rewrite (py_div_nonzero 1 (-1)) by lra. cbn.
  replace (1 + 1 / -1) with 0 by lra. rewrite py_div_zero. reflexivity.
Qed.

Lemma optimal_price_zero_cost e : e < 0 -> optimal_price e 0 = Raise ZeroDivisionError.
Proof.
  intros He. destruct (Req_dec_T e (-1)) as [-> | Hu]; [apply optimal_price_unit |].
  unfold optimal_price. destruct (Rge_dec e 0) as [Hge | _]; [lra |].
  rewrite (py_div_nonzero 1 e) by lra. cbn.
  rewrite py_div_nonzero by (rewrite markup_divisor_zero; lra). cbn.
  rewrite py_div_zero. reflexivity.
Qed.

Lemma error_dict_is_error msg :
  is_error_result (Ok {[ "error" := VStr msg ]}).
Proof. exists {[ "error" := VStr msg ]}, msg. split; [reflexivity |]. apply lookup_singleton_eq. Qed.

Lemma numeric_dict_is_numeric p m :
  is_numeric_result
    (Ok {[ "optimal_price" := VFloat p; "markup_percentage" := VFloat m ]}).
Proof.
  eexists _, p, m. split; [reflexivity |]. repeat split; by simplify_map_eq.
Qed.

Lemma numeric_dict_not_error p m :
  ~ is_error_result
      (Ok {[ "optimal_price" := VFloat p; "markup_percentage" := VFloat m ]}).
Proof. intros (d & msg & [= <-] & H). by simplify_map_eq. Qed.

Lemma raise_not_error e : ~ is_error_result (Raise e).
Proof. intros (d & msg & H & _). discriminate. Qed.

Lemma raise_not_numeric e : ~ is_numeric_result (Raise e).
Proof. intros (d & p & m & H & _). discriminate. Qed.

Lemma optimal_price_error_inv e mc : is_error_result (optimal_price e mc) -> e >= 0.
Proof.
  intros H. destruct (Rge_dec e 0) as [Hge | Hlt]; [assumption | exfalso].
  assert (He : e < 0) by lra.
  destruct (Req_dec_T e (-1)) as [-> | Hu].
  { rewrite optimal_price_unit in H. exact (raise_not_error _ H). }
  destruct (Req_dec_T mc 0) as [-> | Hmc].
  { rewrite optimal_price_zero_cost in H by assumption. exact (raise_not_error _ H). }
  rewrite optimal_price_neg in H by assumption. exact (numeric_dict_not_error _ _ H).
Qed.

(** C3, as stated, fails: elasticity -1 is negative, and [optimal_price]
    raises ZeroDivisionError there instead of returning a numeric mapping
    (so it does for a marginal cost of 0). *)
Lemma optimal_price_numeric_counterexample :
  (-1 < 0 /\ optimal_price (-1) 10 = Raise ZeroDivisionError /\
   ~ is_numeric_result (optimal_price (-1) 10)) /\
  (-2 < 0 /\ ~ is_numeric_result (optimal_price (-2) 0)).
Proof.
  rewrite optimal_price_unit, optimal_price_zero_cost by lra.
  repeat split; try lra; apply raise_not_numeric.
Qed.

(** C3, amended.  [optimal_price] returns an error mapping (a value, not an
    exception) exactly when [elasticity >= 0]; for every negative elasticity
    other than -1 and every nonzero marginal cost it returns a numeric
    mapping.  In particular: an error mapping at elasticity 0 and 2, a
    numeric mapping at elasticity -2. *)
Theorem optimal_price_error_iff_nonneg :
  (forall e mc, is_error_result (optimal_price e mc) <-> e >= 0) /\
  (forall e mc, e < 0 -> e <> -1 -> mc <> 0 ->
     is_numeric_result (optimal_price e mc)) /\
  (forall mc, is_error_result (optimal_price 0 mc) /\
              is_error_result (optimal_price 2 mc)) /\
  (forall mc, mc <> 0 -> is_numeric_result (optimal_price (-2) mc)).
Proof.
  assert (Herr : forall e mc, e >= 0 -> is_error_result (optimal_price e mc)).
  { intros e mc He. rewrite optimal_price_nonneg by assumption.
    apply error_dict_is_error. }
  assert (Hnum : forall e mc, e < 0 -> e <> -1 -> mc <> 0 ->
                   is_numeric_result (optimal_price e mc)).
  { intros e mc He Hu Hmc. rewrite optimal_price_neg by assumption.
    apply numeric_dict_is_numeric. }
  split; [| split; [exact Hnum | split]].
  - intros e mc. split; [apply optimal_price_error_inv | apply Herr].
  - intros mc. split; apply Herr; lra.
  - intros mc Hmc. apply Hnum; lra.
Qed.

Lemma optimal_price_error_iff_nonneg_witness :
  (-4 < 0 /\ -4 <> -1 /\ 3 <> 0) /\ is_numeric_result (optimal_price (-4) 3).
Proof.
  split; [lra |].
  apply (proj1 (proj2 optimal_price_error_iff_nonneg) (-4) 3); lra.
Defined.



(* a third is not a binary64 number: at elasticity -3 the first step of
   the formula already rounds *)
Lemma third_not_binary64 : ~ binary64 (1 / -3).
Proof.
  intros (m & e & _ & [He _] & Heq).
  assert (Hp : powerRZ 2 (e + 1074) = powerRZ 2 e * powerRZ 2 1074)
    by (apply powerRZ_add; lra).
  assert (He' : (e + 1074 = Z.of_nat (Z.to_nat (e + 1074)))%Z) by lia.
  rewrite He', <- pow_powerRZ in Hp.
  replace 2 with (IZR 2) in Hp at 1 by reflexivity. rewrite pow_IZR, <- He' in Hp.
  assert (H1074 : powerRZ 2 1074 = IZR (2 ^ 1074)).
  { change 1074%Z with (Z.of_nat 1074). rewrite <- pow_powerRZ.
    replace 2 with (IZR 2) at 1 by reflexivity. apply pow_IZR. }
  assert (Hz : IZR (- 2 ^ 1074) = IZR (3 * m * 2 ^ (e + 1074))).
  { rewrite opp_IZR, !mult_IZR, Hp, H1074.
    assert (Hpos : 0 < IZR (2 ^ 1074)) by (apply IZR_lt; reflexivity).
    replace (IZR 3 * IZR m * (powerRZ 2 e * IZR (2 ^ 1074)))
      with (3 * (IZR m * powerRZ 2 e) * IZR (2 ^ 1074)) by ring.
    rewrite <- Heq. field. }
  apply eq_IZR in Hz.
  assert (Hmod : ((- 2 ^ 1074) mod 3 = 0)%Z).
  { rewrite Hz, <- Z.mul_assoc, Z.mul_comm. apply Z_mod_mult. }
  vm_compute in Hmod. discriminate.
Qed.

Lemma steps_not_exact_at_minus_3 mc : ~ optimal_price_steps_exact (-3) mc.
Proof.
  unfold optimal_price_steps_exact. cbv zeta. intros H.
  apply Forall_cons_1 in H as [_ H]. apply Forall_cons_1 in H as [_ H].
  apply Forall_cons_1 in H as [H _]. exact (third_not_binary64 H).
Qed.



(** C10.  Elasticity -1 passes the guard [elasticity >= 0], the divisor
    [1 + 1/elasticity] is exactly 0, and [optimal_price] raises
    ZeroDivisionError for every marginal cost: no mapping is returned, and
    in particular not the error mapping, which is returned for
    [elasticity >= 0] only. *)
Theorem optimal_price_unit_elasticity_raises mc :
  ~ (-1 >= 0) /\
  (inv ← 1 /! (-1); Ok (1 + inv)) = Ok 0 /\
  optimal_price (-1) mc = Raise ZeroDivisionError /\
  ~ is_error_result (optimal_price (-1) mc) /\
  (forall e, is_error_result (optimal_price e mc) -> e >= 0).
Proof.
  split; [lra |]. split.
  { rewrite py_div_nonzero by lra. cbn. f_equal. lra. }
  split; [apply optimal_price_unit |]. split.
  - rewrite optimal_price_unit. apply raise_not_error.
  - intros e. apply optimal_price_error_inv.
Qed.

Lemma optimal_price_unit_elasticity_raises_witness :
  is_error_result (optimal_price 2 10) /\ 2 >= 0.
Proof.
  assert (H : is_error_result (optimal_price 2 10)).
  { rewrite optimal_price_nonneg by lra. apply error_dict_is_error. }
  split; [exact H |].
  exact (proj2 (proj2 (proj2 (proj2 (optimal_price_unit_elasticity_raises 10)))) 2 H).
Defined.

(** ** The /production endpoint *)

Lemma production_optional_numbers tfp a b K L :
  production_optional (Some tfp) (Some a) (Some b) K L
    = production (mkCobbDouglasModel tfp a b) K L.
Proof. reflexivity. Qed.

(** C9, as stated, fails: the request capital = labor = 1e200, tfp = 1,
    alpha = 2, beta = 1 passes the range checks and the handler raises
    OverflowError instead of returning a mapping. *)
Lemma calculate_production_overflow_counterexample :
  Request.valid
    (Request.mkProductionRequest 1e200 1e200 (Some 1) (Some 2) (Some 1)) /\
  calculate_production
    (Request.mkProductionRequest 1e200 1e200 (Some 1) (Some 2) (Some 1))
    = Raise OverflowError.
Proof.
  split.
  - unfold Request.valid. cbn [Request.capital Request.labor Request.tfp
      Request.alpha Request.beta].
    repeat split; try lra; eexists; reflexivity.
  - unfold calculate_production. cbn [Request.capital Request.labor Request.tfp
      Request.alpha Request.beta].
    rewrite production_optional_numbers.
    rewrite production_overflows_1e200. reflexivity.
Qed.

(** C9, amended.  For a valid production request on which [production] and
    the two marginal products return, the result mapping has exactly the
    fields output, marginal_product_capital, marginal_product_labor and
    returns_to_scale; returns_to_scale is [alpha + beta], output is what
    [production] returned rounded to 2 decimal places and the marginal
    products are what the two functions returned rounded to 4 decimal
    places. *)
Theorem calculate_production_fields request tfp a b y mpk mpl :
  Request.valid request ->
  Request.tfp request = Some tfp ->
  Request.alpha request = Some a ->
  Request.beta request = Some b ->
  let model := mkCobbDouglasModel tfp a b in
  let K := Request.capital request in
  let L := Request.labor request in
  production model K L = Ok y ->
  marginal_product_capital model K L = Ok mpk ->
  marginal_product_labor model K L = Ok mpl ->
  exists d,
    calculate_production request = Ok d /\
    dom d = {[ "output"; "marginal_product_capital";
               "marginal_product_labor"; "returns_to_scale" ]} /\
    d !! "returns_to_scale" = Some (VFloat (a + b)) /\
    d !! "output" = Some (VFloat (py_round y 2)) /\
    d !! "marginal_product_capital" = Some (VFloat (py_round mpk 4)) /\
    d !! "marginal_product_labor" = Some (VFloat (py_round mpl 4)).
Proof.
  intros _ Ht Ha Hb model K L Hy Hk Hl. eexists. split.
  { unfold calculate_production. rewrite Ht, Ha, Hb.
    rewrite production_optional_numbers. fold model K L.
    rewrite Hy. cbn. fold model K L. rewrite Hk, Hl. reflexivity. }
  split; [rewrite !dom_insert_L, dom_singleton_L; set_solver |].
  repeat split; by simplify_map_eq.
Qed.

Lemma calculate_production_fields_witness :
  Request.valid (Request.mkProductionRequest 4 4 (Some 1) (Some 0.5) (Some 0.5)) /\
  exists d,
    calculate_production
      (Request.mkProductionRequest 4 4 (Some 1) (Some 0.5) (Some 0.5)) = Ok d /\
    dom d = {[ "output"; "marginal_product_capital";
               "marginal_product_labor"; "returns_to_scale" ]} /\
    d !! "returns_to_scale" = Some (VFloat (0.5 + 0.5)) /\
    d !! "output" = Some (VFloat (py_round 4 2)).
Proof.
  assert (Hv : Request.valid
            (Request.mkProductionRequest 4 4 (Some 1) (Some 0.5) (Some 0.5))).
  { unfold Request.valid. cbn. repeat split; try lra; eexists; reflexivity. }
  destruct half_half_4_values as (Hy & Hk & Hl).
  split; [exact Hv |].
  destruct (calculate_production_fields _ 1 0.5 0.5 4 0.5 0.5 Hv
              eq_refl eq_refl eq_refl Hy Hk Hl)
    as (d & Hd & Hdom & Hrts & Hout & _).
  exists d. repeat split; assumption.
Defined.

(** * Further properties *)

(** ** Powers *)

Lemma check_range_1 : check_range 1 = Ok 1.
Proof. apply check_range_ok. rewrite Rabs_pos_eq by lra. apply one_in_range. Qed.

Lemma py_pow_zero_neg y : y < 0 -> 0 ** y = Raise ZeroDivisionError.
Proof.
  intros Hy. unfold py_pow.
  destruct (Rlt_dec 0 0) as [H | _]; [lra |].
  destruct (Req_dec_T 0 0) as [_ | H]; [| contradiction].
  destruct (Req_dec_T y 0) as [H | _]; [lra |].
  destruct (Rlt_dec 0 y) as [H | _]; [lra | reflexivity].
Qed.

Lemma py_pow_zero_pos y : 0 < y -> 0 ** y = Ok 0.
Proof.
  intros Hy. unfold py_pow.
  destruct (Rlt_dec 0 0) as [H | _]; [lra |].
  destruct (Req_dec_T 0 0) as [_ | H]; [| contradiction].
  destruct (Req_dec_T y 0) as [H | _]; [lra |].
  destruct (Rlt_dec 0 y) as [_ | H]; [reflexivity | contradiction].
Qed.

(* x ** 0 is 1 for every base *)
Lemma py_pow_exp_zero x : x ** 0 = Ok 1.
Proof.
  unfold py_pow. destruct (Rlt_dec 0 x) as [Hx | Hx].
  - unfold Rpower. rewrite Rmult_0_l, exp_0. apply check_range_1.
  - destruct (Req_dec_T x 0) as [_ | Hne].
    + destruct (Req_dec_T 0 0) as [_ | H]; [reflexivity | contradiction].
    + destruct (is_integral_dec 0) as [_ | Hi].
      * replace 0 with (IZR 0) at 1 by reflexivity. rewrite Int_part_IZR.
        apply check_range_1.
      * exfalso. apply Hi. unfold is_integral.
        replace 0 with (IZR 0) at 1 by reflexivity. rewrite Int_part_IZR. reflexivity.
Qed.

Lemma Rpower_square_half x : 0 < x -> Rpower (x * x) 0.5 = x.
Proof.
  intros Hx. replace 0.5 with (/ 2) by lra.
  rewrite Rpower_sqrt by (apply Rmult_lt_0_compat; assumption).
  apply sqrt_square. lra.
Qed.

(** ** CobbDouglasModel: scale, shares, zero inputs *)

(** X1.  Returns to scale: with the powers and partial products of both
    calls normal binary64 numbers, scaling both inputs by [t > 0] scales
    the output by [t^(alpha + beta)]. *)
Theorem production_homogeneous self t K L :
  0 < t -> 0 < K -> 0 < L ->
  production_in_range self K L ->
  production_in_range self (t * K) (t * L) ->
  exists y, production self K L = Ok y /\
            production self (t * K) (t * L)
              = Ok (Rpower t (alpha self + beta self) * y).
Proof.
  intros Ht HK HL Hr Hrt. eexists.
  split; [apply production_of_range; assumption |].
  rewrite production_of_range
    by (try apply Rmult_lt_0_compat; assumption).
  rewrite <- !Rpower_mult_distr, Rpower_plus by assumption.
  f_equal. ring.
Qed.

Lemma production_homogeneous_witness :
  (0 < 4 /\ 0 < 4 /\ 0 < 4 /\
   production_in_range (mkCobbDouglasModel 1 0.5 0.5) 4 4 /\
   production_in_range (mkCobbDouglasModel 1 0.5 0.5) (4 * 4) (4 * 4)) /\
  exists y, production (mkCobbDouglasModel 1 0.5 0.5) 4 4 = Ok y /\
            production (mkCobbDouglasModel 1 0.5 0.5) (4 * 4) (4 * 4)
              = Ok (Rpower 4 (0.5 + 0.5) * y).
Proof.
  pose proof (ranges_half_half_4 1 ltac:(lra)) as (Hr & _ & _).
  assert (Hrt : production_in_range (mkCobbDouglasModel 1 0.5 0.5) (4 * 4) (4 * 4)).
  { unfold production_in_range. cbn [A alpha beta products_normal].
    rewrite Rpower_square_half by lra. repeat split; in_range. }
  split; [split; [lra | split; [lra | split; [lra | auto]]] |].
  apply (production_homogeneous (mkCobbDouglasModel 1 0.5 0.5) 4 4 4);
    try lra; assumption.
Defined.

(** X2.  Factor shares: on positive inputs, with the powers and partial
    products of the three formulas normal binary64 numbers, the marginal
    product of capital is [alpha * Y / K] and that of labor is
    [beta * Y / L], [Y] being the output. *)
Theorem marginal_products_are_shares self K L :
  0 < K -> 0 < L ->
  production_in_range self K L ->
  marginal_product_capital_in_range self K L ->
  marginal_product_labor_in_range self K L ->
  exists y, production self K L = Ok y /\
            marginal_product_capital self K L = Ok (alpha self * y / K) /\
            marginal_product_labor self K L = Ok (beta self * y / L).
Proof.
  intros HK HL Hr Hrk Hrl. eexists.
  split; [apply production_of_range; assumption |].
  rewrite marginal_product_capital_of_range, marginal_product_labor_of_range
    by assumption.
  rewrite <- (Rpower_pred_mult K (alpha self) HK).
  rewrite <- (Rpower_pred_mult L (beta self) HL).
  split; f_equal; field; lra.
Qed.

Lemma marginal_products_are_shares_witness :
  (0 < 4 /\ 0 < 4 /\
   production_in_range (mkCobbDouglasModel 2 0.5 0.5) 4 4 /\
   marginal_product_capital_in_range (mkCobbDouglasModel 2 0.5 0.5) 4 4 /\
   marginal_product_labor_in_range (mkCobbDouglasModel 2 0.5 0.5) 4 4) /\
  exists y, production (mkCobbDouglasModel 2 0.5 0.5) 4 4 = Ok y /\
            marginal_product_capital (mkCobbDouglasModel 2 0.5 0.5) 4 4
              = Ok (0.5 * y / 4) /\
            marginal_product_labor (mkCobbDouglasModel 2 0.5 0.5) 4 4
              = Ok (0.5 * y / 4).
Proof.
  pose proof (ranges_half_half_4 2 ltac:(lra)) as (Hr & Hrk & Hrl).
  split; [split; [lra | split; [lra | auto]] |].
  apply (marginal_products_are_shares (mkCobbDouglasModel 2 0.5 0.5) 4 4);
    try lra; assumption.
Defined.

(** X4.  Zero capital.  With a positive capital elasticity the output at
    zero capital is 0 (labor positive and its power within the binary64
    range); with a negative one [production] raises ZeroDivisionError; and
    with a capital elasticity below 1 the marginal product of capital
    raises ZeroDivisionError, whatever the labor. *)
Theorem production_at_zero_capital self L :
  (0 < alpha self -> 0 < L -> Rpower L (beta self) < overflow_threshold ->
     production self 0 L = Ok 0) /\
  (alpha self < 0 -> production self 0 L = Raise ZeroDivisionError) /\
  (alpha self < 1 -> marginal_product_capital self 0 L = Raise ZeroDivisionError).
Proof.
  split; [| split].
  - intros Ha HL Hr. unfold production.
    rewrite py_pow_zero_pos, (py_pow_pos L) by assumption. cbn. f_equal. ring.
  - intros Ha. unfold production. rewrite py_pow_zero_neg by assumption. reflexivity.
  - intros Ha. unfold marginal_product_capital.
    rewrite py_pow_zero_neg by lra. reflexivity.
Qed.

Lemma production_at_zero_capital_witness :
  (0 < 0.5 /\ 0 < 4 /\ Rpower 4 0.5 < overflow_threshold) /\
  production (mkCobbDouglasModel 1 0.5 0.5) 0 4 = Ok 0.
Proof.
  assert (Hr : Rpower 4 0.5 < overflow_threshold).
  { rewrite Rpower_4_half. unfold overflow_threshold. lra. }
  split; [split; [lra | split; [lra | exact Hr]] |].
  apply (proj1 (production_at_zero_capital (mkCobbDouglasModel 1 0.5 0.5) 4));
    cbn; lra.
Defined.

(** ** optimal_allocation, for any solver *)

Section AllocationProperties.

Variable minimize :
  (R * R -> outcome R) -> R * R -> list (R * option R) -> (R * R -> R) ->
  outcome (R * R).

(** X5.  A zero price makes [optimal_allocation] raise ZeroDivisionError
    when it computes the initial guess; the solver's answer plays no part. *)
Theorem optimal_allocation_zero_price self budget capital_price labor_price :
  capital_price = 0 \/ labor_price = 0 ->
  optimal_allocation minimize self budget capital_price labor_price
    = Raise ZeroDivisionError.
Proof.
  intros Hz. unfold optimal_allocation.
  destruct (Req_dec_T capital_price 0) as [-> | Hk].
  - rewrite Rmult_0_r, py_div_zero. reflexivity.
  - destruct Hz as [-> | ->]; [contradiction |].
    rewrite (py_div_nonzero budget (2 * capital_price)) by lra. cbn.
    rewrite Rmult_0_r, py_div_zero. reflexivity.
Qed.

(** X6.  Whenever [optimal_allocation] returns, and so whenever the
    /optimize handler returns, the mapping has exactly the fields capital,
    labor, output, mpk and mpl. *)
Theorem optimal_allocation_fields (d : gmap string value) :
  (forall self budget capital_price labor_price,
     optimal_allocation minimize self budget capital_price labor_price = Ok d ->
     dom d = {[ "capital"; "labor"; "output"; "mpk"; "mpl" ]}) /\
  (forall request,
     optimize_production minimize request = Ok d ->
     dom d = {[ "capital"; "labor"; "output"; "mpk"; "mpl" ]}).
Proof.
  assert (Hcore : forall self budget capital_price labor_price,
     optimal_allocation minimize self budget capital_price labor_price = Ok d ->
     dom d = {[ "capital"; "labor"; "output"; "mpk"; "mpl" ]}).
  { intros self budget capital_price labor_price. unfold optimal_allocation.
    destruct (budget /! (2 * capital_price)) as [k0 |]; cbn; [| discriminate].
    destruct (budget /! (2 * labor_price)) as [l0 |]; cbn; [| discriminate].
    destruct (minimize _ _ _ _) as [[K L] |]; cbn; [| discriminate].
    destruct (production self K L); cbn; [| discriminate].
    destruct (marginal_product_capital self K L); cbn; [| discriminate].
    destruct (marginal_product_labor self K L); cbn; [| discriminate].
    intros [= <-]. rewrite !dom_insert_L, dom_singleton_L. set_solver. }
  split; [exact Hcore |].
  intros request. unfold optimize_production.
  destruct (OptimizationRequest.tfp request); cbn; [| discriminate].
  destruct (OptimizationRequest.alpha request); cbn; [| discriminate].
  destruct (OptimizationRequest.beta request); cbn; [| discriminate].
  apply Hcore.
Qed.

End AllocationProperties.

Lemma optimal_allocation_zero_price_witness :
  (0 = 0 \/ 5 = 0) /\
  optimal_allocation (fun _ _ _ _ => Ok (1, 1)) (mkCobbDouglasModel 1 0.3 0.7) 1000 0 5
    = Raise ZeroDivisionError.
Proof.
  split; [left; reflexivity |].
  apply (optimal_allocation_zero_price (fun _ _ _ _ => Ok (1, 1))
           (mkCobbDouglasModel 1 0.3 0.7) 1000 0 5).
  left; reflexivity.
Defined.

Lemma optimal_allocation_fields_witness :
  exists d,
    optimal_allocation (fun _ _ _ _ => Ok (30, 140))
      (mkCobbDouglasModel 1 0.3 0.7) 1000 10 5 = Ok d /\
    dom d = {[ "capital"; "labor"; "output"; "mpk"; "mpl" ]}.
Proof.
  destruct (default_model_returns 30 140) as (Hy & Hk & Hl); try lra.
  pose proof (optimal_allocation_of_answer (fun _ _ _ _ => Ok (30, 140))
                (mkCobbDouglasModel 1 0.3 0.7) 1000 10 5 30 140 _ _ _
                ltac:(lra) ltac:(lra) ltac:(intros; reflexivity) Hy Hk Hl) as H.
  eexists. split; [exact H |].
  exact (proj1 (optimal_allocation_fields (fun _ _ _ _ => Ok (30, 140)) _)
           (mkCobbDouglasModel 1 0.3 0.7) 1000 10 5 H).
Defined.

(** ** DemandModel: the demand curve and revenue *)

(** X8.  A reference price of 0 makes [demand_quantity] (and so [revenue])
    raise ZeroDivisionError, whatever the other arguments. *)
Theorem demand_quantity_zero_base_price price e base_quantity :
  demand_quantity price e 0 base_quantity = Raise ZeroDivisionError /\
  revenue price e 0 base_quantity = Raise ZeroDivisionError.
Proof.
  unfold revenue, demand_quantity. rewrite py_div_zero. split; reflexivity.
Qed.

(** X10.  With elasticity 0 the quantity demanded is the reference quantity
    at every price, as long as the reference price is not 0. *)
Theorem demand_quantity_zero_elasticity price base_price base_quantity :
  base_price <> 0 ->
  demand_quantity price 0 base_price base_quantity = Ok base_quantity.
Proof.
  intros Hb. unfold demand_quantity. rewrite py_div_nonzero by assumption. cbn.
  rewrite py_pow_exp_zero. cbn. f_equal. ring.
Qed.

Lemma demand_quantity_zero_elasticity_witness :
  100 <> 0 /\ demand_quantity 120 0 100 1000 = Ok 1000.
Proof.
  split; [lra |]. apply (demand_quantity_zero_elasticity 120 100 1000). lra.
Defined.



(** X12.  Unit elasticity: at elasticity -1, with the price ratio, the
    power and the two products normal binary64 numbers, the revenue is the
    reference price times the reference quantity at every positive
    price. *)
Theorem revenue_unit_elasticity_constant price base_price base_quantity :
  0 < price -> 0 < base_price ->
  revenue_in_range price (-1) base_price base_quantity ->
  revenue price (-1) base_price base_quantity = Ok (base_price * base_quantity).
Proof.
  intros Hp Hb (_ & Hn & _).
  assert (Hr : 0 < price / base_price) by (apply Rdiv_lt_0_compat; assumption).
  unfold revenue. rewrite demand_quantity_pos; try assumption.
  - cbn. f_equal. replace (-1) with (Ropp 1) by lra.
    rewrite Rpower_Ropp, Rpower_1 by assumption. field. lra.
  - apply binary64_normal_no_overflow; [apply Rpower_pos | assumption].
Qed.

Lemma revenue_unit_elasticity_constant_witness :
  (0 < 50 /\ 0 < 100 /\ revenue_in_range 50 (-1) 100 1000) /\
  revenue 50 (-1) 100 1000 = Ok (100 * 1000).
Proof.
  assert (Hpw : Rpower (50 / 100) (-1) = 2).
  { replace (-1) with (Ropp 1) by lra. rewrite Rpower_Ropp, Rpower_1 by lra. lra. }
  assert (Hr : revenue_in_range 50 (-1) 100 1000).
  { unfold revenue_in_range. rewrite Hpw. repeat split; in_range. }
  split; [split; [lra | split; [lra | exact Hr]] |].
  apply (revenue_unit_elasticity_constant 50 100 1000); try lra. exact Hr.
Defined.

(** ** optimal_price: signs *)

(* the unrounded price and markup, in closed form *)
Lemma markup_closed_form e mc :
  e <> 0 -> e <> -1 -> mc <> 0 ->
  mc / (1 + 1 / e) = mc * e / (1 + e) /\
  (mc / (1 + 1 / e) - mc) / mc * 100 = -100 / (1 + e).
Proof. intros He Hu Hmc. split; field; repeat split; lra. Qed.

(** X15.  Elastic demand (elasticity below -1) and a positive marginal
    cost: both returned numbers are nonnegative, and the returned price is
    not below any whole number that the marginal cost reaches. *)
Theorem optimal_price_elastic e mc :
  e < -1 -> 0 < mc ->
  exists p m,
    optimal_price e mc =
      Ok {[ "optimal_price" := VFloat p; "markup_percentage" := VFloat m ]} /\
    0 <= p /\ 0 <= m /\ (forall k : Z, IZR k <= mc -> IZR k <= p).
Proof.
  intros He Hmc. do 2 eexists.
  split.
  { rewrite optimal_price_neg by lra.
    destruct (markup_closed_form e mc) as [-> ->]; try lra. reflexivity. }
  assert (Hd : 0 < - (1 + e)) by lra.
  assert (Hp : mc < mc * e / (1 + e)).
  { replace (mc * e / (1 + e)) with (mc + mc / - (1 + e)) by (field; lra).
    pose proof (Rdiv_lt_0_compat mc _ Hmc Hd). lra. }
  assert (Hm : 0 < -100 / (1 + e)).
  { replace (-100 / (1 + e)) with (100 / - (1 + e)) by (field; lra).
    apply Rdiv_lt_0_compat; lra. }
  split; [apply (py_round_ge 0); lra |].
  split; [apply (py_round_ge 0); lra |].
  intros k Hk. apply py_round_ge. lra.
Qed.

Lemma optimal_price_elastic_witness :
  (-2 < -1 /\ 0 < 10) /\
  exists p m,
    optimal_price (-2) 10 =
      Ok {[ "optimal_price" := VFloat p; "markup_percentage" := VFloat m ]} /\
    0 <= p /\ 0 <= m /\ (forall k : Z, IZR k <= 10 -> IZR k <= p).
Proof.
  split; [lra |]. apply (optimal_price_elastic (-2) 10); lra.
Defined.

(** X16.  Inelastic demand (elasticity strictly between -1 and 0) and a
    positive marginal cost: the formula is applied unguarded, the returned
    price is not positive and the returned markup is at most -100. *)
Theorem optimal_price_inelastic e mc :
  -1 < e -> e < 0 -> 0 < mc ->
  exists p m,
    optimal_price e mc =
      Ok {[ "optimal_price" := VFloat p; "markup_percentage" := VFloat m ]} /\
    p <= 0 /\ m <= -100.
Proof.
  intros Hl He Hmc. do 2 eexists.
  split.
  { rewrite optimal_price_neg by lra.
    destruct (markup_closed_form e mc) as [-> ->]; try lra. reflexivity. }
  assert (Hd : 0 < 1 + e) by lra.
  assert (Hi : 0 < / (1 + e)) by (apply Rinv_0_lt_compat; assumption).
  assert (Hone : (1 + e) * / (1 + e) = 1) by (apply Rinv_r; lra).
  assert (Hp : mc * e / (1 + e) < 0).
  { assert (Hme : 0 < mc * - e) by (apply Rmult_lt_0_compat; lra).
    pose proof (Rmult_lt_0_compat _ _ Hme Hi). unfold Rdiv. lra. }
  assert (Hm : -100 / (1 + e) < -100).
  { assert (Hgt : 1 < / (1 + e)) by nra. unfold Rdiv. lra. }
  split; [apply (py_round_le 0); lra | apply (py_round_le (-100)); lra].
Qed.

Lemma optimal_price_inelastic_witness :
  (-1 < -0.5 /\ -0.5 < 0 /\ 0 < 10) /\
  exists p m,
    optimal_price (-0.5) 10 =
      Ok {[ "optimal_price" := VFloat p; "markup_percentage" := VFloat m ]} /\
    p <= 0 /\ m <= -100.
Proof.
  split; [lra |]. apply (optimal_price_inelastic (-0.5) 10); lra.
Defined.

(** ** The /optimal-price, /demand and /production endpoints *)

(** X17.  With a positive marginal cost, as the request schema requires,
    the /optimal-price handler raises exactly when the elasticity is -1,
    and what it raises is ZeroDivisionError; at every other elasticity it
    returns a mapping. *)
Theorem find_optimal_price_raises_iff request :
  0 < OptimalPriceRequest.marginal_cost request ->
  ((exists ex, find_optimal_price request = Raise ex) <->
     OptimalPriceRequest.elasticity request = -1) /\
  (OptimalPriceRequest.elasticity request = -1 ->
     find_optimal_price request = Raise ZeroDivisionError) /\
  (OptimalPriceRequest.elasticity request <> -1 ->
     exists d, find_optimal_price request = Ok d).
Proof.
  destruct request as [e mc]. cbn. intros Hmc. unfold find_optimal_price. cbn.
  assert (Hok : e <> -1 -> exists d, optimal_price e mc = Ok d).
  { intros Hu. destruct (Rge_dec e 0) as [Hge | Hlt].
    - eexists. apply optimal_price_nonneg. assumption.
    - eexists. apply optimal_price_neg; lra. }
  split; [split | split].
  - intros [ex Hex]. destruct (Req_dec_T e (-1)) as [Hu | Hu]; [assumption |].
    destruct (Hok Hu) as [d Hd]. congruence.
  - intros ->. eexists. apply optimal_price_unit.
  - intros ->. apply optimal_price_unit.
  - exact Hok.
Qed.

Lemma find_optimal_price_raises_iff_witness :
  0 < 10 /\
  find_optimal_price (OptimalPriceRequest.mk (-1) 10) = Raise ZeroDivisionError.
Proof.
  split; [lra |].
  apply (proj1 (proj2 (find_optimal_price_raises_iff (OptimalPriceRequest.mk (-1) 10)
                         ltac:(cbn; lra)))).
  reflexivity.
Defined.



(** X19.  The /demand request does not constrain the reference price: a
    reference price of 0 makes the handler raise ZeroDivisionError, also
    when the reference quantity is null, and a null reference price makes
    it raise TypeError. *)
Theorem calculate_demand_bad_base_price price e base_quantity :
  calculate_demand (DemandRequest.mk price e (Some 0) base_quantity)
    = Raise ZeroDivisionError /\
  calculate_demand (DemandRequest.mk price e None base_quantity)
    = Raise TypeError.
Proof.
  unfold calculate_demand, demand_quantity_optional, demand_quantity. cbn.
  split; [| reflexivity].
  destruct base_quantity; rewrite py_div_zero; reflexivity.
Qed.

(** X20.  At the reference price, with a positive reference price, the
    /demand handler reports the reference quantity rounded to 2 decimals,
    whatever the elasticity. *)
Theorem calculate_demand_at_base_price e bp bq :
  0 < bp ->
  exists d,
    calculate_demand (DemandRequest.mk bp e (Some bp) (Some bq)) = Ok d /\
    d !! "quantity_demanded" = Some (VFloat (py_round bq 2)).
Proof.
  intros Hb.
  assert (Hq : demand_quantity bp e bp bq = Ok bq).
  { assert (Hone : bp / bp = 1) by (field; lra).
    rewrite demand_quantity_pos; try assumption.
    - rewrite Hone, Rpower_base_1. f_equal. ring.
    - rewrite Hone, Rpower_base_1. apply one_in_range. }
  eexists. split.
  { unfold calculate_demand, revenue_optional, demand_quantity_optional.
    cbn [DemandRequest.price DemandRequest.elasticity DemandRequest.base_price
         DemandRequest.base_quantity].
    rewrite Hq. reflexivity. }
  by simplify_map_eq.
Qed.

Lemma calculate_demand_at_base_price_witness :
  0 < 100 /\
  exists d,
    calculate_demand (DemandRequest.mk 100 (-1.5) (Some 100) (Some 1000)) = Ok d /\
    d !! "quantity_demanded" = Some (VFloat (py_round 1000 2)).
Proof.
  split; [lra |]. apply (calculate_demand_at_base_price (-1.5) 100 1000); lra.
Defined.

(** X21.  Null parameters of a /production request.  A null alpha raises
    TypeError at once; a null tfp raises TypeError once [capital ** alpha]
    has returned; a null beta raises TypeError once [capital ** alpha] has
    returned and tfp is a number. *)
Theorem calculate_production_null_parameter capital labor tfp alpha beta :
  calculate_production (Request.mkProductionRequest capital labor tfp None beta)
    = Raise TypeError /\
  (forall a ka, alpha = Some a -> capital ** a = Ok ka -> tfp = None ->
     calculate_production (Request.mkProductionRequest capital labor tfp alpha beta)
       = Raise TypeError) /\
  (forall a ka t, alpha = Some a -> capital ** a = Ok ka -> tfp = Some t ->
     beta = None ->
     calculate_production (Request.mkProductionRequest capital labor tfp alpha beta)
       = Raise TypeError).
Proof.
  split; [reflexivity |]. split.
  - intros a ka -> Hka ->. unfold calculate_production, production_optional.
    cbn [Request.capital Request.labor Request.tfp Request.alpha Request.beta
         require_float].
    rewrite bind_Ok, Hka. reflexivity.
  - intros a ka t -> Hka -> ->. unfold calculate_production, production_optional.
    cbn [Request.capital Request.labor Request.tfp Request.alpha Request.beta
         require_float].
    rewrite bind_Ok, Hka. reflexivity.
Qed.

Lemma calculate_production_null_parameter_witness :
  (Some 0.5 = Some 0.5 /\ 4 ** 0.5 = Ok 2 /\ @None R = None) /\
  calculate_production (Request.mkProductionRequest 4 50 None (Some 0.5) (Some 0.7))
    = Raise TypeError.
Proof.
  assert (Hp : 4 ** 0.5 = Ok 2).
  { rewrite py_pow_pos; rewrite ?Rpower_4_half; try reflexivity; try lra.
    unfold overflow_threshold. lra. }
  split; [split; [reflexivity | split; [exact Hp | reflexivity]] |].
  exact (proj1 (proj2 (calculate_production_null_parameter 4 50 None
                         (Some 0.5) (Some 0.7))) 0.5 2 eq_refl Hp eq_refl).
Defined.
